(** * configure_cors.py: a shallow embedding

    The script [configure_cors.py] ensures that the storage client library
    is importable (installing it through pip if not), then sets the CORS
    rule list of one storage bucket through the client library, and prints
    progress, result and fallback text.

    The embedding is a state and exception monad.  The state holds what
    the script can change: the local package environment, standard output,
    the remote buckets' CORS rule lists, and a log of the external calls
    attempted.  Everything the script does not decide (whether an import
    raises, how the installer exits, whether each client-library call
    raises) is read from a [world] record, so every theorem quantifies over
    all the ways the environment can behave. *)

From Stdlib Require Import ZArith Ascii String.
From stdpp Require Import base gmap strings list pretty.


(** ** Python exceptions *)

(** The exception classes that the script's calls can raise, with the
    built-in hierarchy ([mro]) that [except K] tests against. *)
Inductive exc_class :=
  | BaseException
  | Exception
  | KeyboardInterrupt
  | ImportError
  | ModuleNotFoundError
  | SubprocessError
  | CalledProcessError
  | OSError
  | FileNotFoundError
  | PermissionError
  | ValueError
  | GoogleAuthError
  | DefaultCredentialsError
  | GoogleAPICallError
  | NotFound
  | Forbidden.

(** Method resolution order of each class: itself and its ancestors. *)
Definition mro (c : exc_class) : list exc_class :=
  match c with
  | BaseException => [BaseException]
  | Exception => [Exception; BaseException]
  | KeyboardInterrupt => [KeyboardInterrupt; BaseException]
  | ImportError => [ImportError; Exception; BaseException]
  | ModuleNotFoundError => [ModuleNotFoundError; ImportError; Exception; BaseException]
  | SubprocessError => [SubprocessError; Exception; BaseException]
  | CalledProcessError => [CalledProcessError; SubprocessError; Exception; BaseException]
  | OSError => [OSError; Exception; BaseException]
  | FileNotFoundError => [FileNotFoundError; OSError; Exception; BaseException]
  | PermissionError => [PermissionError; OSError; Exception; BaseException]
  | ValueError => [ValueError; Exception; BaseException]
  | GoogleAuthError => [GoogleAuthError; Exception; BaseException]
  | DefaultCredentialsError =>
      [DefaultCredentialsError; GoogleAuthError; Exception; BaseException]
  | GoogleAPICallError => [GoogleAPICallError; Exception; BaseException]
  | NotFound => [NotFound; GoogleAPICallError; Exception; BaseException]
  | Forbidden => [Forbidden; GoogleAPICallError; Exception; BaseException]
  end.

(** An exception object: its class and [str(e)]. *)
Record exn := mk_exn { exc_cls : exc_class; exc_str : string }.

(** Position of a class in the declaration above, to compare classes. *)
Definition exc_index (c : exc_class) : nat :=
  match c with
  | BaseException => 0 | Exception => 1 | KeyboardInterrupt => 2
  | ImportError => 3 | ModuleNotFoundError => 4 | SubprocessError => 5
  | CalledProcessError => 6 | OSError => 7 | FileNotFoundError => 8
  | PermissionError => 9 | ValueError => 10 | GoogleAuthError => 11
  | DefaultCredentialsError => 12 | GoogleAPICallError => 13 | NotFound => 14
  | Forbidden => 15
  end.

(** [isinstance(e, K)]: [K] occurs in the class's MRO. *)
Definition isinstance (e : exn) (k : exc_class) : bool :=
  existsb (fun c => Nat.eqb (exc_index c) (exc_index k)) (mro (exc_cls e)).

(** ** Python values that are printed *)

(** [repr] of a str: single quotes unless the text has a single quote
    and no double quote; the chosen quote and backslashes are escaped
    (non-printable characters do not occur in the script's strings). *)
Fixpoint str_has (c : ascii) (s : string) : bool :=
  match s with
  | EmptyString => false
  | String c' s' => bool_decide (c = c') || str_has c s'
  end.

Fixpoint escape_with (q : ascii) (s : string) : string :=
  match s with
  | EmptyString => EmptyString
  | String c s' =>
      if bool_decide (c = q) || bool_decide (c = "092"%char)
      then String "092"%char (String c (escape_with q s'))
      else String c (escape_with q s')
  end.

Definition py_str_repr (s : string) : string :=
  let q := if str_has "039"%char s && negb (str_has "034"%char s)
           then "034"%char else "039"%char in
  String q (escape_with q s +:+ String q EmptyString).

Fixpoint join_comma (l : list string) : string :=
  match l with
  | [] => ""
  | [x] => x
  | x :: l' => x +:+ ", " +:+ join_comma l'
  end.

(** [repr] (and [str], which agrees on lists) of a list of str. *)
Definition py_list_repr (l : list string) : string :=
  "[" +:+ join_comma (map py_str_repr l) +:+ "]".

(** [str] of an int. *)
Definition py_int_str (z : Z) : string :=
  if bool_decide (z < 0)%Z then "-" +:+ pretty (Z.to_N (- z)) else pretty (Z.to_N z).

(** ** Data of the script *)

(** One entry of the [cors_config] list: a dict with the keys
    ["origin"], ["method"], ["maxAgeSeconds"] and ["responseHeader"]. *)
Record cors_rule := mk_cors_rule {
  origin : list string;
  method : list string;
  maxAgeSeconds : Z;
  responseHeader : list string
}.

(** ** Environment and state *)

(** How [subprocess.check_call] ends: the child ran and exited with a
    status, or spawning/waiting raised (e.g. [OSError]). *)
Inductive call_outcome :=
  | Exited (status : Z)
  | CallRaises (e : exn).

(** What the script does not control.  [w_import_broken] is what importing
    the library raises although it is installed; the other [option exn]
    fields are what each client-library call raises, if anything. *)
Record world := mk_world {
  w_executable : string;            (* sys.executable *)
  w_import_broken : option exn;
  w_installer : call_outcome;
  w_client : option exn;           (* storage.Client() *)
  w_bucket : option exn;           (* client.bucket(name) *)
  w_set_cors : option exn;         (* bucket.cors = ... *)
  w_patch : option exn             (* bucket.patch() *)
}.

(** External calls the script attempts, in order. *)
Inductive event :=
  | EImport (module : string)
  | ESubprocess (argv : list string)
  | EClient
  | EBucket (name : string)
  | ESetCors (rules : list cors_rule)
  | EPatch (name : string).

(** The calls that reach the storage client library. *)
Definition is_remote_event (ev : event) : bool :=
  match ev with
  | EClient | EBucket _ | ESetCors _ | EPatch _ => true
  | _ => false
  end.

Record state := mk_state {
  installed : bool;                           (* library in site-packages *)
  stdout : list string;                       (* one entry per print() *)
  trace : list event;
  remote : gmap string (list cors_rule)       (* bucket name -> CORS list *)
}.

Definition set_installed (s : state) : state :=
  mk_state true (stdout s) (trace s) (remote s).
Definition add_out (l : string) (s : state) : state :=
  mk_state (installed s) (stdout s ++ [l]) (trace s) (remote s).
Definition add_event (ev : event) (s : state) : state :=
  mk_state (installed s) (stdout s) (trace s ++ [ev]) (remote s).
Definition set_remote (name : string) (rs : list cors_rule) (s : state) : state :=
  mk_state (installed s) (stdout s) (trace s) (<[name := rs]> (remote s)).

(** ** The monad: reads the world, threads the state, may raise *)

Inductive result (A : Type) :=
  | Ok (a : A)
  | Exc (e : exn).
Arguments Ok {A} a.
Arguments Exc {A} e.

Definition M (A : Type) : Type := world -> state -> result A * state.

Definition ret {A} (a : A) : M A := fun _ s => (Ok a, s).

Definition bind {A B} (m : M A) (f : A -> M B) : M B :=
  fun w s =>
    match m w s with
    | (Ok a, s') => f a w s'
    | (Exc e, s') => (Exc e, s')
    end.

Definition raise {A} (e : exn) : M A := fun _ s => (Exc e, s).

(** [try: body  except k as e: handler(e)]; an exception that is not an
    instance of [k] propagates, and so does one raised by the handler. *)
Definition try_except {A} (body : M A) (k : exc_class) (handler : exn -> M A) : M A :=
  fun w s =>
    match body w s with
    | (Exc e, s') => if isinstance e k then handler e w s' else (Exc e, s')
    | r => r
    end.

#[global] Instance M_ret : MRet M := @ret.
#[global] Instance M_bind : MBind M := fun A B f m => bind m f.

Definition print (l : string) : M unit := fun _ s => (Ok tt, add_out l s).

Definition log (ev : event) : M unit := fun _ s => (Ok tt, add_event ev s).

Definition ask : M world := fun w s => (Ok w, s).

(** An external call that either returns or raises what the world says. *)
Definition external (ev : event) (o : option exn) : M unit :=
  log ev ;;
  match o with
  | Some e => raise e
  | None => ret tt
  end.

(** [import google.cloud.storage]: an absent package raises
    [ModuleNotFoundError]; an installed one imports, or raises what the
    world says. *)
Definition import_outcome (w : world) (s : state) : option exn :=
  if installed s then w_import_broken w
  else Some (mk_exn ModuleNotFoundError "No module named 'google'").

Definition py_import (module : string) : M unit :=
  fun w s => external (EImport module) (import_outcome w s) w s.

(** Canonical member names of Python's [signal.Signals] on Linux (for
    aliased numbers the first name in sorted order: SIGABRT, SIGCHLD,
    SIGIO). *)
Definition signal_name (n : Z) : option string :=
  match n with
  | 1 => Some "SIGHUP" | 2 => Some "SIGINT" | 3 => Some "SIGQUIT"
  | 4 => Some "SIGILL" | 5 => Some "SIGTRAP" | 6 => Some "SIGABRT"
  | 7 => Some "SIGBUS" | 8 => Some "SIGFPE" | 9 => Some "SIGKILL"
  | 10 => Some "SIGUSR1" | 11 => Some "SIGSEGV" | 12 => Some "SIGUSR2"
  | 13 => Some "SIGPIPE" | 14 => Some "SIGALRM" | 15 => Some "SIGTERM"
  | 16 => Some "SIGSTKFLT" | 17 => Some "SIGCHLD" | 18 => Some "SIGCONT"
  | 19 => Some "SIGSTOP" | 20 => Some "SIGTSTP" | 21 => Some "SIGTTIN"
  | 22 => Some "SIGTTOU" | 23 => Some "SIGURG" | 24 => Some "SIGXCPU"
  | 25 => Some "SIGXFSZ" | 26 => Some "SIGVTALRM" | 27 => Some "SIGPROF"
  | 28 => Some "SIGWINCH" | 29 => Some "SIGIO" | 30 => Some "SIGPWR"
  | 31 => Some "SIGSYS" | 34 => Some "SIGRTMIN" | 64 => Some "SIGRTMAX"
  | _ => None
  end%Z.

(** [CalledProcessError.__str__]: a negative status is minus a signal
    number, shown as [repr(signal.Signals(n))] when [n] is a known signal. *)
Definition called_process_error_str (argv : list string) (status : Z) : string :=
  if bool_decide (status < 0)%Z
  then
    match signal_name (- status) with
    | Some name =>
        "Command '" +:+ py_list_repr argv +:+ "' died with <Signals."
        +:+ name +:+ ": " +:+ py_int_str (- status) +:+ ">."
    | None =>
        "Command '" +:+ py_list_repr argv +:+ "' died with unknown signal "
        +:+ py_int_str (- status) +:+ "."
    end
  else "Command '" +:+ py_list_repr argv +:+ "' returned non-zero exit status "
       +:+ py_int_str status +:+ ".".

(** [subprocess.check_call(argv)] running pip: status 0 returns (and the
    package is then installed); another status raises [CalledProcessError]. *)
Definition check_call (argv : list string) : M unit :=
  fun w s =>
    let s1 := add_event (ESubprocess argv) s in
    match w_installer w with
    | CallRaises e => (Exc e, s1)
    | Exited st =>
        if bool_decide (st = 0)%Z then (Ok tt, set_installed s1)
        else (Exc (mk_exn CalledProcessError (called_process_error_str argv st)), s1)
    end.

(** Client-library calls. *)
Definition storage_Client : M unit := fun w s => external EClient (w_client w) w s.

(** [client.bucket(name)] builds a local handle; no request is made. *)
Record bucket_handle := mk_bucket { b_name : string; b_cors : option (list cors_rule) }.

Definition client_bucket (name : string) : M bucket_handle :=
  fun w s => (external (EBucket name) (w_bucket w) ;; ret (mk_bucket name None)) w s.

Definition set_cors (b : bucket_handle) (rs : list cors_rule) : M bucket_handle :=
  fun w s => (external (ESetCors rs) (w_set_cors w) ;; ret (mk_bucket (b_name b) (Some rs))) w s.

(** [bucket.patch()]: sends the changed property; on success the bucket's
    CORS list is replaced by the one sent. *)
Definition bucket_patch (b : bucket_handle) : M unit :=
  fun w s =>
    match (external (EPatch (b_name b)) (w_patch w)) w s with
    | (Ok _, s') =>
        match b_cors b with
        | Some rs => (Ok tt, set_remote (b_name b) rs s')
        | None => (Ok tt, s')
        end
    | r => r
    end.

Fixpoint for_each {A} (l : list A) (f : A -> M unit) : M unit :=
  match l with
  | [] => ret tt
  | x :: l' => f x ;; for_each l' f
  end.

(** ** The script *)

Definition pip_argv (executable : string) : list string :=
  [executable; "-m"; "pip"; "install"; "google-cloud-storage"].

(** [install_gcloud_storage()], lines 10-24. *)
Definition install_gcloud_storage : M bool :=
  try_except
    (py_import "google.cloud.storage" ;;
     print "google-cloud-storage is already installed" ;;
     mret true)
    ImportError
    (fun _ =>
       print "Installing google-cloud-storage..." ;;
       w ← ask ;
       try_except
         (check_call (pip_argv (w_executable w)) ;;
          print "google-cloud-storage installed successfully" ;;
          mret true)
         CalledProcessError
         (fun e =>
            print ("Failed to install google-cloud-storage: " +:+ exc_str e) ;;
            mret false)).

(** The literal [cors_config], lines 36-50. *)
Definition cors_config : list cors_rule :=
  [mk_cors_rule
     ["http://localhost:5174";
      "http://localhost:5173";
      "http://localhost:3000";
      "http://localhost:8080";
      "https://lamah-357f3.web.app";
      "https://lamah-357f3.firebaseapp.com"]
     ["GET"; "HEAD"]
     3600
     ["Content-Type"]].

Definition bucket_name : string := "lamah-357f3.appspot.com".

(** The loop of lines 63-66. *)
Definition print_rule (rule : cors_rule) : M unit :=
  print ("   Origins: " +:+ py_list_repr (origin rule)) ;;
  print ("   Methods: " +:+ py_list_repr (method rule)) ;;
  print ("   Max Age: " +:+ py_int_str (maxAgeSeconds rule) +:+ " seconds").

(** The body of the [try] block, lines 33-68. *)
Definition configure_body : M bool :=
  py_import "google.cloud" ;;
  let cors_config := cors_config in
  storage_Client ;;
  bucket ← client_bucket bucket_name ;
  bucket ← set_cors bucket cors_config ;
  bucket_patch bucket ;;
  print "CORS configuration applied successfully!" ;;
  print "CORS settings:" ;;
  for_each cors_config print_rule ;;
  mret true.

Definition nl : string := String (ascii_of_nat 10) EmptyString.

(** The [except Exception as e] handler, lines 70-76. *)
Definition configure_handler (e : exn) : M bool :=
  print ("Failed to configure CORS: " +:+ exc_str e) ;;
  print (nl +:+ "Alternative solutions:") ;;
  print "1. Install Google Cloud SDK and use gsutil" ;;
  print "2. Use Firebase Console (web interface)" ;;
  print "3. Use the Service Worker approach we implemented" ;;
  mret false.

(** [configure_cors()], lines 26-76. *)
Definition configure_cors : M bool :=
  ok ← install_gcloud_storage ;
  if negb ok then mret false
  else try_except configure_body Exception configure_handler.

(** The [__main__] block, lines 78-87. *)
Definition main : M unit :=
  print "Configuring Firebase Storage CORS..." ;;
  success ← configure_cors ;
  if (success : bool) then
    (print (nl +:+ "CORS configuration complete!") ;;
     print "Now refresh your app and images should cache to localStorage!")
  else
    (print (nl +:+ "CORS configuration failed.") ;;
     print "Please try the manual gsutil approach or Service Worker solution.").

(** Exit status of the interpreter after running the module body: 0 when
    it completes (the script never calls [sys.exit]); an uncaught
    exception makes it print a traceback and exit with 1, except
    [KeyboardInterrupt], which ends the process by SIGINT (130 in a shell). *)
Definition exit_status (r : result unit) : Z :=
  match r with
  | Ok _ => 0
  | Exc e => if isinstance e KeyboardInterrupt then 130 else 1
  end.

Definition run_script (w : world) (s : state) : Z * state :=
  let '(r, s') := main w s in (exit_status r, s').

(** ** Sample environments *)

Definition fresh_machine : state := mk_state false [] [] ∅.

Definition world_ok : world :=
  mk_world "/usr/bin/python3" None (Exited 0) None None None None.

(** * Proofs *)

Ltac unfold_prog :=
  unfold run_script, main, configure_cors, configure_handler, configure_body,
    install_gcloud_storage, print_rule, for_each, py_import, check_call,
    storage_Client, client_bucket, set_cors, bucket_patch, external, ask,
    log, print, try_except, mbind, mret, M_bind, M_ret, bind, ret, raise in *;
  cbn -[isinstance py_list_repr py_int_str] in *.

(** State after the ensurer's import attempt and the "Installing" line. *)
Definition after_install_msg (s : state) : state :=
  add_out "Installing google-cloud-storage..."
    (add_event (EImport "google.cloud.storage") s).

(** C6: when the library imports, the ensurer returns True, prints that it
    is already installed, runs no subprocess and leaves the package
    environment (and everything else) as it was. *)
Theorem install_when_present (w : world) (s : state) :
  import_outcome w s = None ->
  install_gcloud_storage w s =
    (Ok true, add_out "google-cloud-storage is already installed"
                (add_event (EImport "google.cloud.storage") s)).
Proof. intros H. unfold_prog. rewrite H. reflexivity. Qed.

(** C5: when the library is absent (its import raises an [ImportError]) and
    the installer runs to an exit status, the ensurer runs
    [sys.executable -m pip install google-cloud-storage]; status 0 gives
    True, any other status prints the failure and gives False; in both
    cases a boolean is returned, no exception. *)
Theorem install_when_absent (w : world) (s : state) (e : exn) (status : Z) :
  import_outcome w s = Some e ->
  isinstance e ImportError = true ->
  w_installer w = Exited status ->
  let argv := pip_argv (w_executable w) in
  let s2 := add_event (ESubprocess argv) (after_install_msg s) in
  install_gcloud_storage w s =
    if bool_decide (status = 0)%Z
    then (Ok true, add_out "google-cloud-storage installed successfully"
                     (set_installed s2))
    else (Ok false, add_out ("Failed to install google-cloud-storage: "
                             +:+ called_process_error_str argv status) s2).
Proof.
  intros Himp Hcls Hinst argv s2. unfold_prog. rewrite Himp. cbn.
  rewrite Hcls, Hinst. unfold s2, after_install_msg.
  case_bool_decide; reflexivity.
Qed.

(** Calls the script makes outside the storage client library. *)
Definition local_only (t : list event) : Prop :=
  Forall (fun ev => is_remote_event ev = false) t.

Ltac close_frame :=
  split; [reflexivity |
    eexists; split;
      [cbn; rewrite <-?app_assoc; reflexivity
      | unfold local_only; repeat constructor]].

(** The ensurer, whatever happens, leaves the buckets alone and makes no
    client-library call. *)
Lemma install_frame (w : world) (s s1 : state) (r : result bool) :
  install_gcloud_storage w s = (r, s1) ->
  remote s1 = remote s /\ exists t, trace s1 = trace s ++ t /\ local_only t.
Proof.
  intros H. unfold_prog.
  destruct (import_outcome w s) as [e|]; cbn in H; [|simplify_eq; close_frame].
  destruct (isinstance e ImportError); cbn in H; [|simplify_eq; close_frame].
  destruct (w_installer w) as [st|e']; cbn in H.
  - case_bool_decide; cbn in H; simplify_eq; [close_frame|].
    close_frame.
  - destruct (isinstance e' CalledProcessError); simplify_eq; close_frame.
Qed.

(** C2: when the ensurer reports failure, configure_cors returns False in
    the ensurer's final state: no client, bucket, CORS or patch call is
    made and no bucket changes. *)
Theorem no_remote_call_after_install_failure (w : world) (s s1 : state) :
  install_gcloud_storage w s = (Ok false, s1) ->
  configure_cors w s = (Ok false, s1) /\
  remote s1 = remote s /\
  exists t, trace s1 = trace s ++ t /\ local_only t.
Proof.
  intros H. split.
  - unfold configure_cors, mbind, M_bind, bind. rewrite H. reflexivity.
  - exact (install_frame w s s1 (Ok false) H).
Qed.

Definition world_pip_fails : world :=
  mk_world "/usr/bin/python3" None (Exited 1) None None None None.

Lemma no_remote_call_after_install_failure_witness :
  let s1 := snd (install_gcloud_storage world_pip_fails fresh_machine) in
  install_gcloud_storage world_pip_fails fresh_machine = (Ok false, s1) /\
  configure_cors world_pip_fails fresh_machine = (Ok false, s1).
Proof.
  intros s1.
  assert (H : install_gcloud_storage world_pip_fails fresh_machine = (Ok false, s1))
    by (vm_compute; reflexivity).
  split; [exact H | apply (no_remote_call_after_install_failure _ _ _ H)].
Defined.

Lemma install_when_present_witness :
  import_outcome world_ok (set_installed fresh_machine) = None /\
  install_gcloud_storage world_ok (set_installed fresh_machine) =
    (Ok true, add_out "google-cloud-storage is already installed"
                (add_event (EImport "google.cloud.storage") (set_installed fresh_machine))).
Proof.
  split; [reflexivity | apply install_when_present; reflexivity].
Defined.

Definition module_not_found : exn := mk_exn ModuleNotFoundError "No module named 'google'".

Lemma install_when_absent_witness :
  import_outcome world_pip_fails fresh_machine = Some module_not_found /\
  install_gcloud_storage world_pip_fails fresh_machine =
    (let argv := pip_argv (w_executable world_pip_fails) in
     let s2 := add_event (ESubprocess argv) (after_install_msg fresh_machine) in
     if bool_decide (1 = 0)%Z
     then (Ok true, add_out "google-cloud-storage installed successfully"
                      (set_installed s2))
     else (Ok false, add_out ("Failed to install google-cloud-storage: "
                              +:+ called_process_error_str argv 1) s2)).
Proof.
  split; [reflexivity|].
  apply (install_when_absent world_pip_fails fresh_machine module_not_found 1);
    reflexivity.
Defined.

(** An event only carries the script's constants. *)
Definition uses_constants (ev : event) : Prop :=
  match ev with
  | ESetCors rs => rs = cors_config
  | EBucket n | EPatch n => n = bucket_name
  | _ => True
  end.

(** The CORS list every bucket has after a run that started from [m]:
    either untouched, or this bucket's list replaced by the literal. *)
Definition remote_after (m : gmap string (list cors_rule)) (m' : gmap string (list cors_rule)) : Prop :=
  m' = m \/ m' = <[bucket_name := cors_config]> m.

Ltac close_body :=
  split; [first [left; reflexivity | right; reflexivity] |
    eexists; split;
      [cbn; rewrite <-?app_assoc; reflexivity
      | repeat constructor]].

Lemma configure_body_frame (w : world) (s s1 : state) (r : result bool) :
  configure_body w s = (r, s1) ->
  remote_after (remote s) (remote s1) /\
  exists t, trace s1 = trace s ++ t /\ Forall uses_constants t.
Proof.
  intros H. unfold_prog. unfold import_outcome in H. cbn in H.
  destruct (installed s); [destruct (w_import_broken w)|]; cbn in H;
    try (simplify_eq; close_body; fail).
  all: destruct (w_client w); cbn in H; try (simplify_eq; close_body; fail).
  all: destruct (w_bucket w); cbn in H; try (simplify_eq; close_body; fail).
  all: destruct (w_set_cors w); cbn in H; try (simplify_eq; close_body; fail).
  all: destruct (w_patch w); cbn in H; simplify_eq; close_body.
Qed.

Lemma local_uses_constants (t : list event) :
  local_only t -> Forall uses_constants t.
Proof.
  unfold local_only. intros H. eapply Forall_impl; [exact H|].
  intros []; cbn; done.
Qed.

(** The [except] handler only prints. *)
Lemma configure_handler_run (e : exn) (w : world) (s : state) :
  configure_handler e w s =
    (Ok false,
     add_out "3. Use the Service Worker approach we implemented"
       (add_out "2. Use Firebase Console (web interface)"
          (add_out "1. Install Google Cloud SDK and use gsutil"
             (add_out (nl +:+ "Alternative solutions:")
                (add_out ("Failed to configure CORS: " +:+ exc_str e) s))))).
Proof. reflexivity. Qed.

(** configure_cors unfolded to its two parts. *)
Lemma configure_cors_run (w : world) (s : state) :
  configure_cors w s =
    match install_gcloud_storage w s with
    | (Ok false, s1) => (Ok false, s1)
    | (Ok true, s1) =>
        match configure_body w s1 with
        | (Exc e, s2) => if isinstance e Exception then configure_handler e w s2
                         else (Exc e, s2)
        | r => r
        end
    | (Exc e, s1) => (Exc e, s1)
    end.
Proof.
  unfold configure_cors, mbind, M_bind, bind, try_except, mret, M_ret, ret.
  destruct (install_gcloud_storage w s) as [[[]|] ?]; cbn; [|reflexivity..].
  destruct (configure_body w _) as [[] ?]; reflexivity.
Qed.

Lemma configure_frame (w : world) (s s1 : state) (r : result bool) :
  configure_cors w s = (r, s1) ->
  remote_after (remote s) (remote s1) /\
  exists t, trace s1 = trace s ++ t /\ Forall uses_constants t.
Proof.
  rewrite configure_cors_run. intros H.
  destruct (install_gcloud_storage w s) as [r0 s0] eqn:Hi.
  destruct (install_frame w s s0 r0 Hi) as (Hr0 & t0 & Ht0 & Hl0).
  apply local_uses_constants in Hl0.
  assert (Hk : remote_after (remote s) (remote s0) /\
               exists t, trace s0 = trace s ++ t /\ Forall uses_constants t)
    by (split; [left; exact Hr0 | eauto]).
  destruct r0 as [[]|e]; [|simplify_eq; exact Hk..].
  destruct (configure_body w s0) as [r2 s2] eqn:Hb.
  destruct (configure_body_frame w s0 s2 r2 Hb) as (Hr2 & t2 & Ht2 & Hl2).
  assert (Hk2 : remote_after (remote s) (remote s2) /\
                exists t, trace s2 = trace s ++ t /\ Forall uses_constants t).
  { split.
    - rewrite <-Hr0. exact Hr2.
    - exists (t0 ++ t2). rewrite Ht2, Ht0, app_assoc. split; [reflexivity|].
      apply Forall_app; split; assumption. }
  destruct r2 as [b2|e2]; [simplify_eq; exact Hk2|].
  destruct (isinstance e2 Exception); [|simplify_eq; exact Hk2].
  rewrite configure_handler_run in H. simplify_eq. exact Hk2.
Qed.

(** State after the handler's five lines. *)
Definition fallback_printed (e : exn) (s : state) : state :=
  snd (configure_handler e (mk_world "" None (Exited 0) None None None None) s).

Definition interrupt : exn := mk_exn KeyboardInterrupt "".

(** Ctrl-C while the patch request is in flight. *)
Definition world_interrupted : world :=
  mk_world "/usr/bin/python3" None (Exited 0) None None None (Some interrupt).

(** C1 (as amended): an exception raised inside the [try] block (the
    import, the client, the bucket handle, the CORS assignment, the patch)
    that is an instance of [Exception] is caught: configure_cors prints the
    error and the fallback suggestions and returns False.  One that is not
    an instance of [Exception] (only of [BaseException], such as
    [KeyboardInterrupt]) propagates out of configure_cors unchanged. *)
Theorem configure_catches_exception (w : world) (s s1 s2 : state) (e : exn) :
  install_gcloud_storage w s = (Ok true, s1) ->
  configure_body w s1 = (Exc e, s2) ->
  (isinstance e Exception = true ->
   configure_cors w s = (Ok false, fallback_printed e s2) /\
   stdout (fallback_printed e s2) =
     stdout s2 ++ ["Failed to configure CORS: " +:+ exc_str e;
                   nl +:+ "Alternative solutions:";
                   "1. Install Google Cloud SDK and use gsutil";
                   "2. Use Firebase Console (web interface)";
                   "3. Use the Service Worker approach we implemented"]) /\
  (isinstance e Exception = false ->
   configure_cors w s = (Exc e, s2)).
Proof.
  intros Hi Hb. split.
  - intros He. rewrite configure_cors_run, Hi, Hb, He. split.
    + rewrite configure_handler_run. reflexivity.
    + unfold fallback_printed. rewrite configure_handler_run. cbn.
      rewrite <-!app_assoc. reflexivity.
  - intros He. rewrite configure_cors_run, Hi, Hb, He. reflexivity.
Qed.

Definition no_credentials : exn :=
  mk_exn DefaultCredentialsError "Your default credentials were not found.".

Definition world_no_credentials : world :=
  mk_world "/usr/bin/python3" None (Exited 0) (Some no_credentials) None None None.

Lemma configure_catches_exception_witness :
  (let s1 := snd (install_gcloud_storage world_no_credentials fresh_machine) in
   let s2 := snd (configure_body world_no_credentials s1) in
   configure_cors world_no_credentials fresh_machine =
     (Ok false, fallback_printed no_credentials s2)) /\
  (let s1 := snd (install_gcloud_storage world_interrupted fresh_machine) in
   let s2 := snd (configure_body world_interrupted s1) in
   configure_cors world_interrupted fresh_machine = (Exc interrupt, s2)).
Proof.
  split.
  - intros s1 s2.
    apply (proj1 (configure_catches_exception world_no_credentials fresh_machine
                    s1 s2 no_credentials
                    ltac:(vm_compute; reflexivity) ltac:(vm_compute; reflexivity))).
    vm_compute. reflexivity.
  - intros s1 s2.
    apply (proj2 (configure_catches_exception world_interrupted fresh_machine
                    s1 s2 interrupt
                    ltac:(vm_compute; reflexivity) ltac:(vm_compute; reflexivity))).
    vm_compute. reflexivity.
Defined.

(** C1 as first stated fails: a [KeyboardInterrupt] raised by the patch is
    not caught by [except Exception]; configure_cors raises it. *)
Lemma keyboard_interrupt_in_patch_escapes :
  fst (configure_cors world_interrupted fresh_machine) = Exc interrupt /\
  last (trace (snd (configure_cors world_interrupted fresh_machine)))
    = Some (EPatch bucket_name).
Proof. split; vm_compute; reflexivity. Qed.

(** C3: every rule of the literal allows exactly GET and HEAD, has max age
    3600 and exposes exactly Content-Type; on every run the list given to
    the bucket's CORS attribute is that literal, and a bucket changes only
    by getting that literal. *)
Theorem cors_rules_fixed :
  (forall rule, rule ∈ cors_config ->
     method rule = ["GET"; "HEAD"] /\
     list_to_set (method rule) = ({["GET"; "HEAD"]} : gset string) /\
     maxAgeSeconds rule = 3600%Z /\
     responseHeader rule = ["Content-Type"] /\
     list_to_set (responseHeader rule) = ({["Content-Type"]} : gset string)) /\
  (forall w s r s1, configure_cors w s = (r, s1) ->
     remote_after (remote s) (remote s1) /\
     exists t, trace s1 = trace s ++ t /\ Forall uses_constants t).
Proof.
  split.
  - intros rule Hin. unfold cors_config in Hin.
    apply list_elem_of_singleton in Hin. subst rule. cbn.
    repeat split; set_solver.
  - intros w s r s1. apply configure_frame.
Qed.

Lemma cors_rules_fixed_witness :
  let s1 := snd (configure_cors world_ok fresh_machine) in
  maxAgeSeconds (mk_cors_rule
     ["http://localhost:5174"; "http://localhost:5173";
      "http://localhost:3000"; "http://localhost:8080";
      "https://lamah-357f3.web.app"; "https://lamah-357f3.firebaseapp.com"]
     ["GET"; "HEAD"] 3600 ["Content-Type"]) = 3600%Z /\
  (remote_after (remote fresh_machine) (remote s1) /\
   exists t, trace s1 = trace fresh_machine ++ t /\ Forall uses_constants t).
Proof.
  intros s1. split.
  - apply (proj1 cors_rules_fixed). vm_compute. left.
  - apply (proj2 cors_rules_fixed world_ok fresh_machine
             (fst (configure_cors world_ok fresh_machine))).
    reflexivity.
Defined.

(** C9: one rule, whose origins are the six given strings in this order,
    printed in this order by the summary loop; the bucket is
    lamah-357f3.appspot.com. *)
Theorem cors_literal_contents :
  cors_config =
    [mk_cors_rule
       ["http://localhost:5174"; "http://localhost:5173";
        "http://localhost:3000"; "http://localhost:8080";
        "https://lamah-357f3.web.app"; "https://lamah-357f3.firebaseapp.com"]
       ["GET"; "HEAD"] 3600 ["Content-Type"]] /\
  length cors_config = 1 /\
  bucket_name = "lamah-357f3.appspot.com" /\
  (forall w s,
     for_each cors_config print_rule w s =
       (Ok tt,
        add_out "   Max Age: 3600 seconds"
          (add_out "   Methods: ['GET', 'HEAD']"
             (add_out ("   Origins: ['http://localhost:5174', 'http://localhost:5173', "
                       +:+ "'http://localhost:3000', 'http://localhost:8080', "
                       +:+ "'https://lamah-357f3.web.app', "
                       +:+ "'https://lamah-357f3.firebaseapp.com']") s)))).
Proof.
  split; [reflexivity|]. split; [reflexivity|]. split; [reflexivity|].
  intros w s. vm_compute. reflexivity.
Qed.

(** The lines printed after a successful patch, lines 61-66. *)
Definition success_lines : list string :=
  ["CORS configuration applied successfully!";
   "CORS settings:";
   "   Origins: ['http://localhost:5174', 'http://localhost:5173', "
     +:+ "'http://localhost:3000', 'http://localhost:8080', "
     +:+ "'https://lamah-357f3.web.app', 'https://lamah-357f3.firebaseapp.com']";
   "   Methods: ['GET', 'HEAD']";
   "   Max Age: 3600 seconds"].

Ltac close_out :=
  simplify_eq; cbn;
  first [exists []; rewrite app_nil_r; reflexivity
        | eexists; rewrite <-?app_assoc; reflexivity].

Lemma install_stdout (w : world) (s s1 : state) (r : result bool) :
  install_gcloud_storage w s = (r, s1) ->
  exists o, stdout s1 = stdout s ++ o.
Proof.
  intros H. unfold_prog. unfold import_outcome in H. cbn in H.
  destruct (installed s); [destruct (w_import_broken w) as [e|]|]; cbn in H;
    try (close_out; fail).
  all: try (match type of H with context [isinstance ?e ImportError] =>
         destruct (isinstance e ImportError) end); cbn in H; try (close_out; fail).
  all: destruct (w_installer w) as [st|e']; cbn in H;
    try case_bool_decide; cbn in H; try (close_out; fail).
  all: try (match type of H with context [isinstance ?e CalledProcessError] =>
         destruct (isinstance e CalledProcessError) end); close_out.
Qed.

Ltac no_patch H :=
  apply app_inv_head in H; subst;
  match goal with Hp : EPatch _ ∈ _ |- _ =>
    apply list_elem_of_In in Hp; cbn in Hp; intuition congruence end.

(** Once the patch request has been sent and has returned, the body
    returns True after printing exactly the summary. *)
Lemma configure_body_patched (w : world) (s s1 : state) (r : result bool)
    (t : list event) :
  configure_body w s = (r, s1) ->
  trace s1 = trace s ++ t ->
  EPatch bucket_name ∈ t ->
  w_patch w = None ->
  r = Ok true /\ stdout s1 = stdout s ++ success_lines.
Proof.
  intros H Ht Hp Hw. unfold_prog. unfold import_outcome in H. cbn in H.
  rewrite Hw in H.
  destruct (installed s); [destruct (w_import_broken w)|]; cbn in H;
    try (simplify_eq; cbn in Ht; rewrite <-?app_assoc in Ht; no_patch Ht).
  all: destruct (w_client w); cbn in H;
    try (simplify_eq; cbn in Ht; rewrite <-?app_assoc in Ht; no_patch Ht).
  all: destruct (w_bucket w); cbn in H;
    try (simplify_eq; cbn in Ht; rewrite <-?app_assoc in Ht; no_patch Ht).
  all: destruct (w_set_cors w); cbn in H;
    try (simplify_eq; cbn in Ht; rewrite <-?app_assoc in Ht; no_patch Ht).
  all: simplify_eq; split; [reflexivity|].
  all: cbn; rewrite <-!app_assoc; reflexivity.
Qed.

Lemma local_no_patch (t : list event) (n : string) :
  local_only t -> EPatch n ∈ t -> False.
Proof.
  unfold local_only. rewrite Forall_forall. intros Hl Hp.
  specialize (Hl _ Hp). discriminate.
Qed.

(** C4: when the patch request is sent and succeeds, configure_cors
    returns True, and the last lines it prints are exactly the summary:
    the six origins, the methods ['GET', 'HEAD'] and the max age 3600,
    one line each for the one rule. *)
Theorem patch_success_reports_summary (w : world) (s s1 : state)
    (r : result bool) (t : list event) :
  configure_cors w s = (r, s1) ->
  trace s1 = trace s ++ t ->
  EPatch bucket_name ∈ t ->
  w_patch w = None ->
  r = Ok true /\ exists pre, stdout s1 = stdout s ++ pre ++ success_lines.
Proof.
  rewrite configure_cors_run. intros H Ht Hp Hw.
  destruct (install_gcloud_storage w s) as [r0 s0] eqn:Hi.
  destruct (install_frame w s s0 r0 Hi) as (_ & t0 & Ht0 & Hl0).
  destruct (install_stdout w s s0 r0 Hi) as [o Ho].
  destruct r0 as [[]|e];
    [| simplify_eq; rewrite Ht0 in Ht; apply app_inv_head in Ht; subst;
       exfalso; eapply local_no_patch; eassumption ..].
  destruct (configure_body w s0) as [r2 s2] eqn:Hb.
  destruct (configure_body_frame w s0 s2 r2 Hb) as (_ & t2 & Ht2 & _).
  assert (Htr : trace s1 = trace s2).
  { destruct r2 as [|e2]; [simplify_eq; reflexivity|].
    destruct (isinstance e2 Exception); [|simplify_eq; reflexivity].
    rewrite configure_handler_run in H. simplify_eq. reflexivity. }
  rewrite Htr, Ht2, Ht0, <-app_assoc in Ht. apply app_inv_head in Ht. subst t.
  apply elem_of_app in Hp as [Hp|Hp];
    [exfalso; eapply local_no_patch; eassumption|].
  destruct (configure_body_patched w s0 s2 r2 t2 Hb Ht2 Hp Hw) as [-> Hout].
  simplify_eq. split; [reflexivity|]. exists o. rewrite Hout, Ho, app_assoc.
  reflexivity.
Qed.

Lemma patch_success_reports_summary_witness :
  let s1 := snd (configure_cors world_ok fresh_machine) in
  fst (configure_cors world_ok fresh_machine) = Ok true /\
  exists pre, stdout s1 = stdout fresh_machine ++ pre ++ success_lines.
Proof.
  intros s1.
  apply (patch_success_reports_summary world_ok fresh_machine s1
           (fst (configure_cors world_ok fresh_machine)) (trace s1));
    [reflexivity | reflexivity | vm_compute; by repeat constructor | reflexivity].
Defined.

Ltac split_world :=
  repeat (cbn in *; match goal with
    | |- context [installed ?s] => is_var s; destruct (installed s) eqn:?
    | |- context [w_import_broken ?w] => destruct (w_import_broken w) eqn:?
    | |- context [w_installer ?w] => destruct (w_installer w) eqn:?
    | |- context [w_client ?w] => destruct (w_client w) eqn:?
    | |- context [w_bucket ?w] => destruct (w_bucket w) eqn:?
    | |- context [w_set_cors ?w] => destruct (w_set_cors w) eqn:?
    | |- context [w_patch ?w] => destruct (w_patch w) eqn:?
    | |- context [isinstance ?e ?k] => is_var e; destruct (isinstance e k) eqn:?
    | |- context [bool_decide ?p] => destruct (bool_decide p) eqn:?
    end).

(** Which way a single run goes, as a function of the world and of
    whether the library is installed when it starts. *)
Definition is_none {A} (o : option A) : bool :=
  match o with None => true | Some _ => false end.

Definition installer_ok (w : world) : bool :=
  match w_installer w with
  | Exited st => bool_decide (st = 0%Z)
  | CallRaises _ => false
  end.

(** The first import raises an [ImportError], so pip is run. *)
Definition import_needs_install (w : world) (inst : bool) : bool :=
  if inst then
    match w_import_broken w with
    | Some e => isinstance e ImportError
    | None => false
    end
  else true.

Definition installed_after (w : world) (inst : bool) : bool :=
  inst || (import_needs_install w inst && installer_ok w).

Definition body_ok (w : world) : bool :=
  is_none (w_import_broken w) && is_none (w_client w) && is_none (w_bucket w)
  && is_none (w_set_cors w) && is_none (w_patch w).

Definition run_patches (w : world) (inst : bool) : bool :=
  installed_after w inst && body_ok w.

Lemma configure_effect (w : world) (s : state) :
  remote (snd (configure_cors w s)) =
    (if run_patches w (installed s) then <[bucket_name := cors_config]> (remote s)
     else remote s) /\
  installed (snd (configure_cors w s)) = installed_after w (installed s).
Proof.
  unfold run_patches, installed_after, body_ok, import_needs_install, installer_ok.
  unfold_prog. unfold import_outcome.
  split_world; cbn; split; first [reflexivity | congruence].
Qed.

Lemma run_patches_after (w : world) (inst : bool) :
  run_patches w (installed_after w inst) = true -> run_patches w inst = true.
Proof.
  unfold run_patches, installed_after, body_ok, import_needs_install.
  destruct inst, (w_import_broken w); cbn; try done.
  all: destruct (installer_ok w); cbn; done.
Qed.

(** C7: a second run with the same constants (against the same
    environment) leaves every bucket's CORS list as the first run left it;
    a run replaces this bucket's list by the literal, whatever it was
    before, or changes nothing. *)
Theorem rerun_same_remote (w : world) (s : state) :
  remote (snd (configure_cors w (snd (configure_cors w s)))) =
    remote (snd (configure_cors w s)) /\
  remote_after (remote s) (remote (snd (configure_cors w s))).
Proof.
  destruct (configure_effect w s) as [Hr1 Hi1].
  destruct (configure_effect w (snd (configure_cors w s))) as [Hr2 _].
  split.
  - rewrite Hr2, Hi1, Hr1.
    destruct (run_patches w (installed_after w (installed s))) eqn:Hp2; [|reflexivity].
    rewrite (run_patches_after w (installed s) Hp2). apply insert_insert_eq.
  - rewrite Hr1. unfold remote_after.
    destruct (run_patches w (installed s)); [right|left]; reflexivity.
Qed.

(** C8: whenever configure_cors returns a boolean, True or False, the
    script ends with exit status 0; failure shows only in the output. *)
Theorem exit_status_zero_on_boolean (w : world) (s s1 : state) (b : bool) :
  configure_cors w (add_out "Configuring Firebase Storage CORS..." s) = (Ok b, s1) ->
  fst (run_script w s) = 0%Z.
Proof.
  intros H. unfold run_script, main, mbind, M_bind, bind, print.
  cbn -[configure_cors]. rewrite H. destruct b; reflexivity.
Qed.

Lemma exit_status_zero_on_boolean_witness :
  fst (configure_cors world_pip_fails
         (add_out "Configuring Firebase Storage CORS..." fresh_machine)) = Ok false /\
  fst (run_script world_pip_fails fresh_machine) = 0%Z.
Proof.
  split; [vm_compute; reflexivity|].
  apply (exit_status_zero_on_boolean world_pip_fails fresh_machine
           (snd (configure_cors world_pip_fails
                   (add_out "Configuring Firebase Storage CORS..." fresh_machine)))
           false).
  vm_compute. reflexivity.
Defined.

(** C10: what the handlers do not catch.  An import error that is not an
    [ImportError], and an installer failure that is not a
    [CalledProcessError] (e.g. [OSError] when spawning), propagate out of
    the ensurer and out of configure_cors, which calls the ensurer before
    its [try]; an exception raised in the [try] block that is not an
    [Exception] (e.g. [KeyboardInterrupt]) propagates too; and whatever
    propagates out of configure_cors ends the script with a nonzero status. *)
Theorem uncaught_exceptions_propagate :
  (forall (w : world) (s : state) (e : exn),
     import_outcome w s = Some e ->
     isinstance e ImportError = false ->
     configure_cors w s = (Exc e, add_event (EImport "google.cloud.storage") s)) /\
  (forall (w : world) (s : state) (e e' : exn),
     import_outcome w s = Some e ->
     isinstance e ImportError = true ->
     w_installer w = CallRaises e' ->
     isinstance e' CalledProcessError = false ->
     configure_cors w s =
       (Exc e', add_event (ESubprocess (pip_argv (w_executable w))) (after_install_msg s))) /\
  (forall (w : world) (s s1 s2 : state) (e : exn),
     install_gcloud_storage w s = (Ok true, s1) ->
     configure_body w s1 = (Exc e, s2) ->
     isinstance e Exception = false ->
     configure_cors w s = (Exc e, s2)) /\
  (forall (w : world) (s s1 : state) (e : exn),
     configure_cors w (add_out "Configuring Firebase Storage CORS..." s) = (Exc e, s1) ->
     fst (run_script w s) <> 0%Z).
Proof.
  split; [|split; [|split]].
  - intros w s e Himp Hcls. rewrite configure_cors_run.
    unfold install_gcloud_storage. unfold_prog. rewrite Himp. cbn.
    rewrite Hcls. reflexivity.
  - intros w s e e' Himp Hcls Hinst Hcls'. rewrite configure_cors_run.
    unfold install_gcloud_storage. unfold_prog. rewrite Himp. cbn.
    rewrite Hcls, Hinst. cbn. rewrite Hcls'. reflexivity.
  - intros w s s1 s2 e Hi Hb He. rewrite configure_cors_run, Hi, Hb, He.
    reflexivity.
  - intros w s s1 e H. unfold run_script, main, mbind, M_bind, bind, print.
    cbn -[configure_cors]. rewrite H. unfold exit_status.
    destruct (isinstance e KeyboardInterrupt); discriminate.
Qed.

Definition value_error : exn := mk_exn ValueError "invalid configuration".

(** An installed but broken library whose import raises [ValueError]. *)
Definition world_broken_import : world :=
  mk_world "/usr/bin/python3" (Some value_error) (Exited 0) None None None None.

Definition no_interpreter : exn :=
  mk_exn FileNotFoundError "[Errno 2] No such file or directory: '/usr/bin/python3'".

Definition world_spawn_fails : world :=
  mk_world "/usr/bin/python3" None (CallRaises no_interpreter) None None None None.

Lemma uncaught_exceptions_propagate_witness :
  configure_cors world_broken_import (set_installed fresh_machine) =
    (Exc value_error, add_event (EImport "google.cloud.storage") (set_installed fresh_machine)) /\
  configure_cors world_spawn_fails fresh_machine =
    (Exc no_interpreter,
     add_event (ESubprocess (pip_argv "/usr/bin/python3")) (after_install_msg fresh_machine)) /\
  configure_cors world_interrupted fresh_machine =
    (Exc interrupt, snd (configure_body world_interrupted
                           (snd (install_gcloud_storage world_interrupted fresh_machine)))) /\
  fst (run_script world_interrupted fresh_machine) <> 0%Z.
Proof.
  destruct uncaught_exceptions_propagate as (P1 & P2 & P3 & P4).
  split; [|split; [|split]].
  - apply P1; reflexivity.
  - apply (P2 world_spawn_fails fresh_machine module_not_found); reflexivity.
  - apply (P3 world_interrupted fresh_machine
             (snd (install_gcloud_storage world_interrupted fresh_machine)));
      vm_compute; reflexivity.
  - apply (P4 world_interrupted fresh_machine
             (snd (configure_cors world_interrupted
                     (add_out "Configuring Firebase Storage CORS..." fresh_machine)))
             interrupt).
    vm_compute. reflexivity.
Defined.

(** * Further properties of the script *)

(** The configurator's own calls, in the order its [try] block makes them. *)
Definition configurator_calls : list event :=
  [EImport "google.cloud"; EClient; EBucket bucket_name;
   ESetCors cors_config; EPatch bucket_name].

Definition is_configurator_call (ev : event) : bool :=
  match ev with
  | EImport m => bool_decide (m = "google.cloud")
  | ESubprocess _ => false
  | _ => true
  end.

Definition is_subprocess (ev : event) : bool :=
  match ev with ESubprocess _ => true | _ => false end.

Definition is_client (ev : event) : bool :=
  match ev with EClient => true | _ => false end.

Ltac run_cases :=
  unfold_prog; unfold import_outcome; split_world; cbn.

Ltac new_events :=
  eexists; split; [rewrite <-?app_assoc; reflexivity|].

Ltac close_steps :=
  split; [rewrite <-?app_assoc; reflexivity|];
  split; [reflexivity|];
  repeat split; intros; first [lia | congruence].

(** X1: the configurator's steps run in source order and stop at the first
    one that raises.  The calls a run makes after the ensurer are the
    first [k] of: import, client, bucket handle, CORS assignment, patch;
    if step [j] raises, [k <= j], so no later step is attempted; and when
    the ensurer returned True and none of the first four steps raises,
    all five are made. *)
Theorem configurator_calls_in_order (w : world) (s : state) :
  exists t k, trace (snd (configure_cors w s)) = trace s ++ t /\
    List.filter is_configurator_call t = take k configurator_calls /\
    (w_import_broken w <> None -> k <= 1) /\
    (w_client w <> None -> k <= 2) /\
    (w_bucket w <> None -> k <= 3) /\
    (w_set_cors w <> None -> k <= 4) /\
    (fst (install_gcloud_storage w s) = Ok true ->
     w_import_broken w = None -> w_client w = None -> w_bucket w = None ->
     w_set_cors w = None -> k = 5).
Proof.
  run_cases.
  all: eexists; first [exists 0; close_steps | exists 1; close_steps
                      | exists 2; close_steps | exists 3; close_steps
                      | exists 4; close_steps | exists 5; close_steps].
Qed.

(** X2: a run starts the installer at most once, and only when the first
    import raised an [ImportError]. *)
Theorem installer_at_most_once (w : world) (s : state) :
  exists t, trace (snd (configure_cors w s)) = trace s ++ t /\
    length (List.filter is_subprocess t) <= 1 /\
    (List.filter is_subprocess t <> [] ->
     match import_outcome w s with
     | Some e => isinstance e ImportError = true
     | None => False
     end).
Proof.
  run_cases; new_events.
  all: split; [cbn; lia|].
  all: intros Hne; first [exfalso; apply Hne; reflexivity | assumption | reflexivity].
Qed.

(** X3: a run changes no bucket other than lamah-357f3.appspot.com. *)
Theorem other_buckets_untouched (w : world) (s : state) (n : string) :
  n <> bucket_name ->
  remote (snd (configure_cors w s)) !! n = remote s !! n.
Proof.
  intros Hn. destruct (configure_effect w s) as [Hr _]. rewrite Hr.
  destruct (run_patches w (installed s)); [|reflexivity].
  apply lookup_insert_ne. congruence.
Qed.

Lemma other_buckets_untouched_witness :
  "other-bucket" <> bucket_name /\
  remote (snd (configure_cors world_ok fresh_machine)) !! "other-bucket" =
    remote fresh_machine !! "other-bucket".
Proof.
  split; [discriminate|]. apply other_buckets_untouched. discriminate.
Defined.

(** X4: configure_cors returns True only after the patch was sent and the
    bucket's CORS list replaced by the literal. *)
Theorem true_only_after_patch (w : world) (s : state) :
  fst (configure_cors w s) = Ok true ->
  remote (snd (configure_cors w s)) = <[bucket_name := cors_config]> (remote s) /\
  exists t, trace (snd (configure_cors w s)) = trace s ++ t /\ EPatch bucket_name ∈ t.
Proof.
  run_cases; intros H; try discriminate.
  all: split; [reflexivity|]; new_events; by repeat constructor.
Qed.

Lemma true_only_after_patch_witness :
  fst (configure_cors world_ok fresh_machine) = Ok true /\
  remote (snd (configure_cors world_ok fresh_machine)) =
    <[bucket_name := cors_config]> (remote fresh_machine).
Proof.
  assert (H : fst (configure_cors world_ok fresh_machine) = Ok true)
    by (vm_compute; reflexivity).
  split; [exact H | exact (proj1 (true_only_after_patch _ _ H))].
Defined.

(** X5: the only [Exception] instances that escape configure_cors come
    from the ensurer: a non-[ImportError] raised by importing the installed
    library, or a non-[CalledProcessError] raised when starting pip; any
    other escaping exception is not an [Exception]. *)
Theorem escaping_exceptions (w : world) (s : state) (e : exn) :
  fst (configure_cors w s) = Exc e ->
  (installed s = true /\ w_import_broken w = Some e /\
   isinstance e ImportError = false) \/
  (w_installer w = CallRaises e /\ isinstance e CalledProcessError = false) \/
  isinstance e Exception = false.
Proof.
  run_cases; intros H; try discriminate.
  all: injection H as <-.
  all: repeat match goal with Hs : Some _ = Some _ |- _ => injection Hs as Hs; subst end.
  all: first [left; repeat split; first [assumption | reflexivity]
             | right; left; split; first [assumption | reflexivity]
             | right; right; first [assumption | reflexivity]
             | congruence].
Qed.

Lemma escaping_exceptions_witness :
  fst (configure_cors world_spawn_fails fresh_machine) = Exc no_interpreter /\
  ((installed fresh_machine = true /\ w_import_broken world_spawn_fails = Some no_interpreter /\
    isinstance no_interpreter ImportError = false) \/
   (w_installer world_spawn_fails = CallRaises no_interpreter /\
    isinstance no_interpreter CalledProcessError = false) \/
   isinstance no_interpreter Exception = false).
Proof.
  assert (H : fst (configure_cors world_spawn_fails fresh_machine) = Exc no_interpreter)
    by (vm_compute; reflexivity).
  split; [exact H | exact (escaping_exceptions _ _ _ H)].
Defined.

(** [true] unless an [EClient] comes before the first
    [EImport "google.cloud"]. *)
Fixpoint import_before_client (t : list event) : bool :=
  match t with
  | [] => true
  | EImport m :: t' =>
      if bool_decide (m = "google.cloud") then true else import_before_client t'
  | EClient :: _ => false
  | _ :: t' => import_before_client t'
  end.

(** X6: the storage client is constructed only once the library is
    installed, and only after configure_cors's own import of google.cloud
    in the same run: any [EClient] of the run is preceded by that import. *)
Theorem client_only_when_installed (w : world) (s : state) :
  exists t, trace (snd (configure_cors w s)) = trace s ++ t /\
    (existsb is_client t = true ->
     installed (snd (configure_cors w s)) = true /\ import_before_client t = true).
Proof.
  run_cases; new_events.
  all: intros Hc; first [discriminate | split; reflexivity].
Qed.

Lemma installer_at_most_once_witness :
  exists t, trace (snd (configure_cors world_ok fresh_machine)) = trace fresh_machine ++ t /\
    length (List.filter is_subprocess t) <= 1 /\
    (List.filter is_subprocess t <> [] ->
     match import_outcome world_ok fresh_machine with
     | Some e => isinstance e ImportError = true
     | None => False
     end).
Proof. exact (installer_at_most_once world_ok fresh_machine). Defined.

Lemma client_only_when_installed_witness :
  exists t, trace (snd (configure_cors world_ok fresh_machine)) = trace fresh_machine ++ t /\
    (existsb is_client t = true ->
     installed (snd (configure_cors world_ok fresh_machine)) = true /\
     import_before_client t = true).
Proof. exact (client_only_when_installed world_ok fresh_machine). Defined.

Lemma configurator_calls_in_order_witness :
  exists t k, trace (snd (configure_cors world_no_credentials fresh_machine)) =
      trace fresh_machine ++ t /\
    List.filter is_configurator_call t = take k configurator_calls /\
    (w_import_broken world_no_credentials <> None -> k <= 1) /\
    (w_client world_no_credentials <> None -> k <= 2) /\
    (w_bucket world_no_credentials <> None -> k <= 3) /\
    (w_set_cors world_no_credentials <> None -> k <= 4) /\
    (fst (install_gcloud_storage world_no_credentials fresh_machine) = Ok true ->
     w_import_broken world_no_credentials = None -> w_client world_no_credentials = None ->
     w_bucket world_no_credentials = None -> w_set_cors world_no_credentials = None ->
     k = 5).
Proof. exact (configurator_calls_in_order world_no_credentials fresh_machine). Defined.
